(** * Reef1D: the one-dimensional analytical hydrodynamic model

    A shallow embedding of [src/core/hydrodynamics/reef_1d.py] (class
    [Reef1D]) and of the members of [HydrodynamicProtocol]
    ([src/core/hydrodynamics/hydrodynamic_protocol.py]) it answers to.

    Conventions of the embedding:
    - a numpy [float64] is a primitive binary64 [float]; numpy arithmetic on
      arrays never raises (it warns), so [/] is IEEE division;
    - a Python attribute of type [Optional[...]] is an [option];
    - a property or method that can raise returns an [outcome];
    - the methods [initiate], [update], [finalise] act on the objects they
      can reach (the model itself and the coral passed in), so they are
      written in explicit state passing over a [World]. *)

From Stdlib Require Import Floats ZArith Bool.
From Stdlib Require String.
From stdpp Require Import base option list strings.

#[local] Open Scope Z_scope.

(** ** Python outcomes *)

(** The exceptions the modelled code can raise. *)
Inductive exn : Set :=
  | NotImplementedError
  | TypeError
  | ZeroDivisionError
  | ValueError
  | OverflowError
  | IndexError.

Inductive outcome (A : Type) : Type :=
  | Return (a : A)
  | Raise (e : exn).
Arguments Return {A} a.
Arguments Raise {A} e.

(** Sequencing: the first exception raised ends the computation. *)
Definition obind {A B} (m : outcome A) (f : A → outcome B) : outcome B :=
  match m with
  | Return a => f a
  | Raise e => Raise e
  end.

Notation "x <- y ; z" := (obind y (λ x, z))
  (at level 20, y at level 100, z at level 200, only parsing).

#[global] Instance outcome_ret : MRet outcome := @Return.
#[global] Instance outcome_bind : MBind outcome := λ A B f m, obind m f.
#[global] Instance outcome_fmap : FMap outcome :=
  λ A B f m, obind m (Return ∘ f).

(** Whether a computation ended in an exception. *)
Definition is_raise {A} (m : outcome A) : bool :=
  match m with
  | Return _ => false
  | Raise _ => true
  end.

(** ** Numbers and arrays *)

(** A Python scalar: [int] or [float]. *)
Inductive scalar : Set :=
  | PyInt (z : Z)
  | PyFloat (f : float).

(** A one-dimensional [np.ndarray], by dtype. *)
Inductive ndarray : Set :=
  | Int64Array (l : list Z)
  | Float64Array (l : list float).

(** A two-column [np.ndarray] (shape [(n, 2)]), by dtype. *)
Inductive ndarray2 : Set :=
  | Int64Array2 (rows : list (Z * Z))
  | Float64Array2 (rows : list (float * float)).

(** The binary64 value nearest to an integer (round to nearest even), as
    numpy and Python promote an integer in float arithmetic. *)
Definition float_of_Z (z : Z) : float :=
  SF2Prim (binary_normalize prec emax z 0 false).

Definition to_float (s : scalar) : float :=
  match s with
  | PyInt z => float_of_Z z
  | PyFloat f => f
  end.

(** [==] on two entries of numpy arrays: an [int64] beside a [float64] is
    promoted to [float64]. *)
Definition np_equal (a b : scalar) : bool :=
  match a, b with
  | PyInt x, PyInt y => x =? y
  | _, _ => PrimFloat.eqb (to_float a) (to_float b)
  end.

(** [len(a)] *)
Definition np_len (a : ndarray) : nat :=
  match a with
  | Int64Array l => length l
  | Float64Array l => length l
  end.

(** [a[i]] for [i >= 0]; out of range raises [IndexError]. *)
Definition np_getitem (a : ndarray) (i : nat) : outcome scalar :=
  match a with
  | Int64Array l => from_option (Return ∘ PyInt) (Raise IndexError) (l !! i)
  | Float64Array l => from_option (Return ∘ PyFloat) (Raise IndexError) (l !! i)
  end.

(** The entry of an array at an index, with a default out of range. *)
Definition np_item (a : ndarray) (i : nat) : scalar :=
  match a with
  | Int64Array l => PyInt (default 0 (l !! i))
  | Float64Array l => PyFloat (default 0%float (l !! i))
  end.

Definition np_len2 (a : ndarray2) : nat :=
  match a with
  | Int64Array2 r => length r
  | Float64Array2 r => length r
  end.

(** Row [i] of a two-column array, as a pair of scalars. *)
Definition np_getrow (a : ndarray2) (i : nat) : option (scalar * scalar) :=
  match a with
  | Int64Array2 r => prod_map PyInt PyInt <$> r !! i
  | Float64Array2 r => prod_map PyFloat PyFloat <$> r !! i
  end.

Definition is_int (s : scalar) : bool :=
  match s with PyInt _ => true | PyFloat _ => false end.

Definition int_value (s : scalar) : Z :=
  match s with PyInt z => z | PyFloat _ => 0 end.

(** A row of integers. *)
Definition int_row (r : scalar * scalar) : bool := is_int r.1 && is_int r.2.

(** [np.array(rows)] for a list of two-element rows of numpy scalars: the
    result is [int64] when every entry is an integer and [float64]
    otherwise, every entry converted; an empty list gives an empty
    [float64] array. *)
Definition np_array2 (rows : list (scalar * scalar)) : ndarray2 :=
  match rows with
  | [] => Float64Array2 []
  | _ =>
    if forallb int_row rows
    then Int64Array2 (prod_map int_value int_value <$> rows)
    else Float64Array2 (prod_map to_float to_float <$> rows)
  end.

(** *** [np.arange(0, stop, step)] *)

(** Ceiling of a finite binary64 value given by sign, mantissa and
    exponent. *)
Definition finite_ceil (s : bool) (m : positive) (e : Z) : Z :=
  let m := Z.pos m in
  if 0 <=? e then (if s then - m else m) * 2 ^ e
  else if s then - (m / 2 ^ (- e))
  else (m + 2 ^ (- e) - 1) / 2 ^ (- e).

(** The length [np.arange] takes from the quotient [q = (stop - 0) / step]:
    its ceiling, which must be a number within the index range, a
    [ValueError] otherwise.  A zero quotient of a non-zero [stop] (a step
    of infinite size) counts as one entry when positive and as none when
    negative. *)
Definition arange_length (stop : Z) (q : float) : outcome Z :=
  match Prim2SF q with
  | S754_nan => Raise ValueError
  | S754_infinity _ => Raise ValueError
  | S754_zero s => Return (if stop =? 0 then 0 else if s then 0 else 1)
  | S754_finite s m e =>
    let n := finite_ceil s m e in
    if (- 2 ^ 63 <=? n) && (n <? 2 ^ 63) then Return n else Raise ValueError
  end.

(** Entry [i] of the [float64] result: the start, then start plus step,
    then [start + i * delta] for the difference [delta] of the first
    two. *)
Definition arange_entry (d : float) (i : Z) : float :=
  if i =? 0 then 0%float
  else if i =? 1 then (0 + d)%float
  else (0 + float_of_Z i * ((0 + d) - 0))%float.

(** [0, 1, ..., n-1] as integers; empty when [n <= 0]. *)
Definition zrange (n : Z) : list Z := Z.of_nat <$> seq 0 (Z.to_nat n).

(** [np.arange(0, stop, step)] with [stop] a Python [int].  numpy takes
    the length from [(stop - 0) / step], the quotient being Python's true
    division (which raises [ZeroDivisionError] on a zero step), and gives
    an empty array when the length is not positive.  The result is [int64]
    for an integer step, entry [i] being [0 + i * step], and [float64] for
    a float step.  For an integer step the quotient is taken exactly
    (Python rounds it to binary64 first, with the same ceiling for any
    [stop] below 2^53); running out of memory is not modelled.  The
    integer step is one that fits [int64]: for a larger Python [int] numpy
    leaves that dtype, so statements about the entries of the result
    bound the step. *)
Definition np_arange (stop : Z) (step : scalar) : outcome ndarray :=
  match step with
  | PyInt d =>
    if d =? 0 then Raise ZeroDivisionError
    else Return (Int64Array ((λ i, 0 + i * d) <$> zrange (- ((- stop) / d))))
  | PyFloat d =>
    if PrimFloat.eqb d 0%float then Raise ZeroDivisionError
    else
      n <- arange_length stop (float_of_Z stop / d)%float;
      Return (Float64Array (arange_entry d <$> zrange n))
  end.

(** *** Element-wise and masked array operations on [float64] data *)

(** A binary operation applied entry by entry to two arrays of one length. *)
Definition np_map2 (op : float → float → float) (a b : list float) : list float :=
  zip_with op a b.

(** [np.zeros(n)] *)
Definition np_zeros (n : nat) : list float := replicate n 0%float.

(** [a[mask]]: the entries of [a] where [mask] holds, in order. *)
Fixpoint np_select (mask : list bool) (a : list float) : list float :=
  match mask, a with
  | m :: mask, x :: a => if m then x :: np_select mask a else np_select mask a
  | _, _ => []
  end.

(** [a[mask] = vals]: the entries of [a] where [mask] holds are replaced,
    in order, by the entries of [vals]. *)
Fixpoint np_put_mask (a : list float) (mask : list bool) (vals : list float)
  : list float :=
  match a, mask with
  | x :: a, m :: mask =>
    if m then
      match vals with
      | v :: vals => v :: np_put_mask a mask vals
      | [] => x :: np_put_mask a mask []
      end
    else x :: np_put_mask a mask vals
  | _, _ => a
  end.

(** [enumerate(a)] *)
Definition enumerate {A} (a : list A) : list (nat * A) := imap pair a.

(** ** The model object *)

(** The fields of [Reef1D], all [Optional] and [None] by default.  The
    bathymetry [bath] and the stored [water_depth] are [float64] arrays;
    [Hs], [Tp] and the canopy parameters are read at their [float64] value
    (an integer given for them is promoted in the first arithmetic
    expression that meets it); [dx] keeps Python's distinction between
    [int] and [float], which [np.arange] shows in its result. *)
Record Reef1D : Set := {
  working_dir : option String.string;
  definition_file : option String.string;
  config_file : option String.string;
  water_depth : option (list float);
  can_dia : option float;
  can_height : option float;
  can_den : option float;
  bath : option (list float);
  Hs : option float;
  Tp : option float;
  dx : option scalar;
}.

(** [Reef1D()] *)
Definition Reef1D_default : Reef1D := {|
  working_dir := None; definition_file := None; config_file := None;
  water_depth := None;
  can_dia := None; can_height := None; can_den := None;
  bath := None; Hs := None; Tp := None; dx := None;
|}.

(** Reading the attribute [water_depth]: a plain field access. *)
Definition get_water_depth (self : Reef1D) : outcome (option (list float)) :=
  Return (water_depth self).

(** ** Coordinates *)

(** [Reef1D.space] *)
Definition space (self : Reef1D) : option nat :=
  match bath self with
  | None => None
  | Some b => Some (length b)
  end.

(** [Reef1D.x_coordinates] *)
Definition x_coordinates (self : Reef1D) : outcome (option ndarray) :=
  match space self, dx self with
  | Some n, Some d => Some <$> np_arange (Z.of_nat n) d
  | _, _ => Return None
  end.

(** [Reef1D.y_coordinates] *)
Definition y_coordinates (self : Reef1D) : ndarray := Int64Array [0].

(** [len(a)] and [a[i]] for a value that may be [None]. *)
Definition py_len (a : option ndarray) : outcome nat :=
  match a with
  | None => Raise TypeError
  | Some a => Return (np_len a)
  end.

Definition py_getitem (a : option ndarray) (i : nat) : outcome scalar :=
  match a with
  | None => Raise TypeError
  | Some a => np_getitem a i
  end.

(** [Reef1D.xy_coordinates]; every access to [self.x_coordinates] computes
    the array again. *)
Definition xy_coordinates (self : Reef1D) : outcome (option ndarray2) :=
  x <- x_coordinates self;
  match x with
  | None => Return None
  | Some _ =>
    x <- x_coordinates self;
    n <- py_len x;
    rows <- mapM (λ i,
              x <- x_coordinates self;
              xi <- py_getitem x i;
              y0 <- np_getitem (y_coordinates self) 0;
              Return (xi, y0))
            (seq 0 n);
    Return (Some (np_array2 rows))
  end.

(** ** Wave mechanics *)

(** [np.pi] *)
Definition np_pi : float := 0x1.921fb54442d18p+1%float.

(** The gravitational acceleration written in the source, [9.81]. *)
Definition grav : float := 0x1.39eb851eb851fp+3%float.

(** [x ** 2] as the square rounded to binary64.  Python computes it with
    the C library's [pow], whose result can differ from that by one unit
    in the last place, and raises [OverflowError] when the square of a
    finite number overflows.  Only the rounded square is modelled, so the
    model covers the periods whose square is finite; the relations proved
    between the wave properties are stated for a model on which
    [wave_length] returns, and none depends on the exact value handed to
    the solver. *)
Definition pow2 (x : float) : float := (x * x)%float.

(** [a > 0] on an array: the boolean mask. *)
Definition np_gt0 (a : list float) : list bool := (λ x, 0 <? x)%float <$> a.

Section WaveMechanics.
(** [np.tanh], [np.sinh] and [scipy.optimize.fsolve] are library code:
    [fsolve func x0] is the root [fsolve] reports for [func] from the
    starting point [x0] (it returns its last iterate, with a warning,
    when it does not converge); the source stores that one-entry result
    as the entry [L[i]]. *)
Variables np_tanh np_sinh : float → float.
Variable fsolve : (float → float) → float → float.

#[local] Open Scope float_scope.

(** [Reef1D.per_wav] *)
Definition per_wav (self : Reef1D) : option float := Tp self.

(** [Reef1D.water_level] *)
Definition water_level (self : Reef1D) : float := 0.

(** A value that must be a number: [None] in arithmetic is a [TypeError]. *)
Definition number {A} (x : option A) : outcome A :=
  from_option Return (Raise TypeError) x.

(** [Reef1D.depth] *)
Definition depth (self : Reef1D) : outcome (list float) :=
  b <- number (bath self);
  Return ((λ x, x + water_level self) <$> b).

(** [Reef1D.dispersion] *)
Definition dispersion (wave_length wave_period depth grav_acc : float) : float :=
  wave_length
  - ((grav_acc * pow2 wave_period) / (2 * np_pi))
    * np_tanh (2 * np_pi * depth / wave_length).

(** One turn of the loop of [wave_length]. *)
Definition wave_length_step (T L0 : float) (L : list float) (ih : nat * float)
  : list float :=
  if 0 <? ih.2
  then <[ih.1 := fsolve (λ x, dispersion x T ih.2 grav) L0]> L
  else L.

(** [Reef1D.wave_length] *)
Definition wave_length (self : Reef1D) : outcome (list float) :=
  T <- number (per_wav self);
  let L0 := grav * pow2 T in
  d <- depth self;
  let L := np_zeros (length d) in
  d <- depth self;
  Return (foldl (wave_length_step T L0) L (enumerate d)).

(** [Reef1D.wave_number] *)
Definition wave_number (self : Reef1D) : outcome (list float) :=
  L <- wave_length self;
  let k := np_zeros (length L) in
  L_rhs <- wave_length self;
  L_rhs_mask <- wave_length self;
  L_mask <- wave_length self;
  Return (np_put_mask k (np_gt0 L_mask)
            ((λ x, 2 * np_pi / x) <$> np_select (np_gt0 L_rhs_mask) L_rhs)).

(** [Reef1D.wave_celerity] *)
Definition wave_celerity (self : Reef1D) : outcome (list float) :=
  L <- wave_length self;
  T <- number (per_wav self);
  Return ((λ x, x / T) <$> L).

(** [Reef1D.group_celerity] *)
Definition group_celerity (self : Reef1D) : outcome (list float) :=
  k <- wave_number self;
  d <- depth self;
  k' <- wave_number self;
  d' <- depth self;
  let n :=
    (λ x, 0.5 * x) <$>
      ((λ x, 1 + x) <$>
         np_map2 PrimFloat.div
           (np_map2 PrimFloat.mul ((λ x, 2 * x) <$> k) d)
           (np_sinh <$> np_map2 PrimFloat.mul k' d')) in
  c <- wave_celerity self;
  Return (np_map2 PrimFloat.mul n c).

(** Node by node: the wave length the loop of [wave_length] leaves at a
    node of depth [h], and the wave number [wave_number] derives from a
    wave length [l]. *)
Definition node_wave_length (T h : float) : float :=
  if 0 <? h
  then fsolve (λ x, dispersion x T h grav) (grav * pow2 T)
  else 0.

Definition node_wave_number (l : float) : float :=
  if 0 <? l then 2 * np_pi / l else 0.

End WaveMechanics.

(** *** Stand-ins for the library functions

    Used to run the model on concrete inputs: a Padé approximant of the
    hyperbolic tangent, the cubic Taylor polynomial of the hyperbolic sine
    (it keeps both zeros, as IEEE 754 asks of [sinh]), and a solver that
    iterates [x ↦ x - func x] a fixed number of times. *)
Definition example_tanh (x : float) : float :=
  (x * (27 + x * x) / (27 + 9 * x * x))%float.

Definition example_sinh (x : float) : float :=
  (x + x * x * x / 6)%float.

Definition example_fsolve (func : float → float) (x0 : float) : float :=
  Nat.iter 40 (λ x, x - func x)%float x0.

(** The model of the scenario [bath = [-1, 0, 3]], [dx = 5], with
    [Hs = 1.5] and [Tp = 8]. *)
Definition reef_dry_nodes : Reef1D := {|
  working_dir := None; definition_file := None; config_file := None;
  water_depth := None;
  can_dia := None; can_height := None; can_den := None;
  bath := Some [(-1)%float; 0%float; 3%float];
  Hs := Some 1.5%float; Tp := Some 8%float; dx := Some (PyInt 5);
|}.

(** The model of the scenario [bath = [5, 5, 5, 5, 5]], [dx = 10],
    [Hs = 1.5], [Tp = 8], with [dx] given as an [int] and as a [float]. *)
Definition reef_five_nodes (step : scalar) : Reef1D := {|
  working_dir := None; definition_file := None; config_file := None;
  water_depth := None;
  can_dia := None; can_height := None; can_den := None;
  bath := Some (replicate 5 5%float);
  Hs := Some 1.5%float; Tp := Some 8%float; dx := Some step;
|}.

(** The scenario [bath = [-1, 0, 3]] with a period of zero. *)
Definition reef_zero_period : Reef1D := {|
  working_dir := None; definition_file := None; config_file := None;
  water_depth := None;
  can_dia := None; can_height := None; can_den := None;
  bath := Some [(-1)%float; 0%float; 3%float];
  Hs := Some 1.5%float; Tp := Some 0%float; dx := Some (PyInt 5);
|}.

(** ** The members declared by [HydrodynamicProtocol]

    The protocol is structural ([runtime_checkable]): [Reef1D] does not
    inherit from it, so none of these bodies is ever run on a [Reef1D]. *)
Module HydrodynamicProtocol.
Definition water_depth {Self : Type} (self : Self) : outcome (list float) :=
  Raise NotImplementedError.
Definition initiate {Self : Type} (self : Self) : outcome unit * Self :=
  (Raise NotImplementedError, self).
Definition finalise {Self : Type} (self : Self) : outcome unit * Self :=
  (Raise NotImplementedError, self).
End HydrodynamicProtocol.

(** ** Lifecycle methods *)

(** What a caller passes as [storm]: a [bool] (the signature of
    [Reef1D.update]), an [int] storm category (the signature of the
    protocol's [update]) or [None]. *)
Inductive storm_arg : Set :=
  | StormBool (b : bool)
  | StormInt (z : Z)
  | StormNone.

(** Python's truth value, as [if storm:] tests it. *)
Definition truthy (storm : storm_arg) : bool :=
  match storm with
  | StormBool b => b
  | StormInt z => negb (z =? 0)
  | StormNone => false
  end.

(** A Python tuple whose entries are numbers or [None]. *)
Definition pytuple : Set := list (option float).

Section Lifecycle.
(** The coral class lives outside this package; its objects are opaque. *)
Variable Coral : Type.

(** The objects a method call can reach: the model and the coral. *)
Record World : Type := {
  reef : Reef1D;
  coral : Coral;
}.

(** A method: its outcome and the objects as the call leaves them. *)
Definition method (A : Type) : Type := World → outcome A * World.

(** [Reef1D.initiate] *)
Definition initiate : method unit :=
  λ w, (Raise NotImplementedError, w).

(** [Reef1D.update], called as [update(coral, storm)] on the model and
    the coral of the world. *)
Definition update (storm : storm_arg) : method pytuple :=
  λ w,
    if truthy storm
    then (Return [None; None], w)
    else (Return [None; None; None], w).

(** [Reef1D.finalise] *)
Definition finalise : method unit :=
  λ w, (Raise NotImplementedError, w).

(** A caller's sequence of lifecycle calls.  A call that raises leaves
    the objects as they were when the exception left the method, and the
    caller goes on with them. *)
Inductive call : Set :=
  | Initiate
  | Update (storm : storm_arg)
  | Finalise.

Definition perform (c : call) : method (option pytuple) :=
  λ w,
    match c with
    | Initiate => let r := initiate w in ((λ _, None) <$> r.1, r.2)
    | Update storm => let r := update storm w in (Some <$> r.1, r.2)
    | Finalise => let r := finalise w in ((λ _, None) <$> r.1, r.2)
    end.

Definition after (calls : list call) (w : World) : World :=
  foldl (λ w c, (perform c w).2) w calls.

End Lifecycle.

Arguments reef {Coral} w.
Arguments coral {Coral} w.
Arguments initiate {Coral} w.
Arguments update {Coral} storm w.
Arguments finalise {Coral} w.
Arguments perform {Coral} c w.
Arguments after {Coral} calls w.

(** A freshly constructed model next to a coral. *)
Definition fresh_world : World unit := {| reef := Reef1D_default; coral := tt |}.

(** ** The settings report *)

(** The builtins [min] and [max] on an array: the first entry, replaced by
    each later entry that compares strictly below (above) the one kept;
    an empty argument is a [ValueError]. *)
Definition py_min (a : list float) : outcome float :=
  match a with
  | [] => Raise ValueError
  | x :: a => Return (foldl (λ m y, if (y <? m)%float then y else m) x a)
  end.

Definition py_max (a : list float) : outcome float :=
  match a with
  | [] => Raise ValueError
  | x :: a => Return (foldl (λ m y, if (m <? y)%float then y else m) x a)
  end.

(** [n * s] for a Python [int] [n]. *)
Definition py_int_mul (n : Z) (s : scalar) : scalar :=
  match s with
  | PyInt d => PyInt (n * d)
  | PyFloat d => PyFloat (float_of_Z n * d)
  end.

Section Report.
(** How Python prints a float and an integer is library code. *)
Variable str_float : float → string.
Variable str_int : Z → string.

Definition str_scalar (s : scalar) : string :=
  match s with
  | PyInt z => str_int z
  | PyFloat f => str_float f
  end.

(** An interpolated value that may be [None]. *)
Definition str_opt {A} (str : A → string) (x : option A) : string :=
  from_option str "None"%string x.

(** The characters written [\n] and [\t] in the source. *)
Definition newline : Ascii.ascii := Ascii.ascii_of_nat 10.
Definition tab : Ascii.ascii := Ascii.ascii_of_nat 9.
Definition newline_tab : string := String newline (String tab EmptyString).

(** The three values [settings] prepares, already printed: the type name
    of the bathymetry, its range and the length of the domain. *)
Definition settings_values (self : Reef1D)
  : outcome (option string * option string * option string) :=
  match bath self with
  | None => Return (None, None, None)
  | Some b =>
    lo <- py_min b;
    hi <- py_max b;
    let space_dx :=
      match dx self with
      | None => None
      | Some d => Some (str_scalar (py_int_mul (Z.of_nat (length b)) d))
      end in
    Return (Some "ndarray"%string,
            Some (String.concat EmptyString
                    [str_float lo; "-"%string; str_float hi]),
            space_dx)
  end.

(** The message of [settings], from the three prepared values and the
    wave parameters. *)
Definition settings_text (bath_value min_max_bath space_dx : option string)
    (hs tp : option float) : string :=
  String.concat EmptyString
    [ "One-dimensional simple hydrodynamic model to simulate the "%string;
      "hydrodynamics on a (coral) reef with the following settings:"%string;
      newline_tab; "Bathymetric cross-shore data : "%string;
      str_opt id bath_value;
      newline_tab; String tab "range [m]  : "%string; str_opt id min_max_bath;
      newline_tab; String tab "length [m] : "%string; str_opt id space_dx;
      newline_tab; "Significant wave height [m]  : "%string;
      str_opt str_float hs;
      newline_tab; "Peak wave period [s]         : "%string;
      str_opt str_float tp ].

(** [Reef1D.settings] *)
Definition settings (self : Reef1D) : outcome string :=
  v <- settings_values self;
  Return (settings_text v.1.1 v.1.2 v.2 (Hs self) (Tp self)).

End Report.

(** The group celerity [group_celerity] computes at a node of depth [h]. *)
Definition node_group_celerity (np_tanh np_sinh : float → float)
    (fsolve : (float → float) → float → float) (T h : float) : float :=
  let L := node_wave_length np_tanh fsolve T h in
  let k := node_wave_number L in
  (0.5 * (1 + (2 * k * h) / np_sinh (k * h)) * (L / T))%float.

(** * Properties *)

(** ** Facts about binary64 arithmetic *)

Section FloatFacts.
#[local] Open Scope float_scope.

Lemma nonpos_not_pos (h : float) : (h <=? 0) = true → (0 <? h) = false.
Proof.
  rewrite FloatAxioms.leb_spec, FloatAxioms.ltb_spec.
  change (Prim2SF 0) with (S754_zero false).
  destruct (Prim2SF h) as [s|s| |s m e]; try destruct s; cbn; congruence.
Qed.

(** Zero times a value that is not positive is a zero or, for minus
    infinity, not a number. *)
Lemma zero_mul_nonpos (h : float) :
  (h <=? 0) = true → 0 * h = 0 ∨ 0 * h = -0 ∨ 0 * h = nan.
Proof.
  rewrite FloatAxioms.leb_spec. intros H.
  assert (E := mul_spec 0 h).
  change (Prim2SF 0) with (S754_zero false) in *.
  destruct (Prim2SF h) as [s|s| |s m e]; try destruct s;
    cbn in H, E; try congruence;
    [ right; left | left | right; right | right; left ];
    apply Prim2SF_inj; rewrite E; reflexivity.
Qed.

Lemma nan_div (x : float) : nan / x = nan.
Proof.
  apply Prim2SF_inj. rewrite div_spec.
  change (Prim2SF nan) with S754_nan. reflexivity.
Qed.

Lemma nan_mul (x : float) : nan * x = nan.
Proof.
  apply Prim2SF_inj. rewrite mul_spec.
  change (Prim2SF nan) with S754_nan. reflexivity.
Qed.

(** The group-celerity expression at a node where wave number and wave
    length are zero and the depth is not positive, for a hyperbolic sine
    that keeps the two zeros. *)
Lemma group_factor_dry (sinh : float → float) (h c : float) :
  sinh 0 = 0 → sinh (-0) = -0 → (h <=? 0) = true →
  0.5 * (1 + (2 * 0 * h) / sinh (0 * h)) * c = nan.
Proof.
  intros S0 S1 Hh.
  change (2 * 0) with 0.
  destruct (zero_mul_nonpos h Hh) as [-> | [-> | ->]].
  - rewrite S0. change (0.5 * (1 + 0 / 0)) with nan. apply nan_mul.
  - rewrite S1. change (0.5 * (1 + -0 / -0)) with nan. apply nan_mul.
  - rewrite nan_div. change (0.5 * (1 + nan)) with nan. apply nan_mul.
Qed.
End FloatFacts.

(** ** Facts about the array operations *)

Lemma np_zeros_length (n : nat) : length (np_zeros n) = n.
Proof. apply length_replicate. Qed.

Lemma np_put_mask_select (p : float → bool) (g : float → float)
    (L a : list float) :
  length a = length L →
  np_put_mask a (p <$> L) (g <$> np_select (p <$> L) L)
  = zip_with (λ x l, if p l then g l else x) a L.
Proof.
  revert a.
  induction L as [|l L IH]; intros [|x a] Hlen; simplify_eq/=; try done.
  destruct (p l); simpl; by rewrite IH.
Qed.

Lemma lookup_fmap_at {A B} (f : A → B) (a : list A) (i : nat) (x : A) :
  a !! i = Some x → (f <$> a) !! i = Some (f x).
Proof. intros H. by rewrite list_lookup_fmap, H. Qed.

Lemma lookup_map2 (op : float → float → float) (a b : list float) (i : nat)
    (x y : float) :
  a !! i = Some x → b !! i = Some y → np_map2 op a b !! i = Some (op x y).
Proof.
  intros Ha Hb. unfold np_map2. apply lookup_zip_with_Some. by exists x, y.
Qed.

Lemma zip_with_zeros {A} (f : float → A → float) (n : nat) (l : list A) :
  n = length l →
  zip_with f (np_zeros n) l = (f 0%float) <$> l.
Proof.
  intros ->. unfold np_zeros.
  induction l as [|x l IH]; simpl; by rewrite ?IH.
Qed.

(** ** The wave field, node by node *)

Section WaveFacts.
Variables np_tanh np_sinh : float → float.
Variable fsolve : (float → float) → float → float.

#[local] Open Scope float_scope.

(** The loop, started on a buffer whose first [length pre] entries are
    done: every remaining entry is solved for or left as it is. *)
Lemma wave_length_loop (T : float) (d pre L : list float) (n : nat) :
  length pre = n → length L = length d →
  foldl (wave_length_step np_tanh fsolve T (grav * pow2 T)) (pre ++ L)
        (imap (λ i h, (n + i, h)%nat) d)
  = pre ++ zip_with (λ l h, if 0 <? h
                           then node_wave_length np_tanh fsolve T h
                           else l) L d.
Proof.
  revert pre L n.
  induction d as [|h d IH]; intros pre [|l L] n Hpre Hlen; simplify_eq/=;
    try done.
  set (v := if 0 <? h then node_wave_length np_tanh fsolve T h else l).
  assert (Hstep : wave_length_step np_tanh fsolve T (grav * pow2 T)
                    (pre ++ l :: L) ((length pre + 0)%nat, h)
                  = (pre ++ [v]) ++ L).
  { unfold wave_length_step, v, node_wave_length. simpl.
    rewrite <- (assoc_L (++)). simpl.
    destruct (0 <? h); [|done].
    rewrite insert_app_r_alt by lia.
    by replace (length pre + 0 - length pre)%nat with 0%nat by lia. }
  rewrite Hstep.
  rewrite (imap_ext _ (λ i h, (S (length pre) + i, h)%nat)).
  2:{ intros i x _. simpl. f_equal. lia. }
  rewrite (IH (pre ++ [v]) L (S (length pre))); [| |done].
  - by rewrite <- (assoc_L (++)).
  - rewrite length_app. simpl. lia.
Qed.

Lemma depth_set (self : Reef1D) (b : list float) :
  bath self = Some b →
  depth self = Return ((λ x, x + 0) <$> b).
Proof. unfold depth. by intros ->. Qed.

(** With bathymetry and period set, [wave_length] returns, for every
    node, the solver's root where the depth is positive and zero
    elsewhere. *)
Lemma wave_length_set (self : Reef1D) (b : list float) (T : float) :
  bath self = Some b → Tp self = Some T →
  wave_length np_tanh fsolve self
  = Return (node_wave_length np_tanh fsolve T <$> ((λ x, x + 0) <$> b)).
Proof.
  intros Hb HT. unfold wave_length, per_wav.
  rewrite HT, (depth_set _ _ Hb). simpl.
  pose proof (wave_length_loop T ((λ x, x + 0) <$> b) []
                (np_zeros (length ((λ x, x + 0) <$> b))) 0%nat) as Hloop.
  simpl in Hloop. unfold enumerate. f_equal.
  etransitivity; [exact (Hloop eq_refl (np_zeros_length _))|].
  rewrite zip_with_zeros by done.
  apply list_fmap_ext. intros i h _.
  unfold node_wave_length. by destruct (0 <? h).
Qed.

(** [wave_number] returns, entry by entry, [2π / L] where the wave length
    is positive and zero elsewhere. *)
Lemma wave_number_set (self : Reef1D) (L : list float) :
  wave_length np_tanh fsolve self = Return L →
  wave_number np_tanh fsolve self = Return (node_wave_number <$> L).
Proof.
  intros HL. unfold wave_number. rewrite HL. simpl.
  unfold np_gt0.
  rewrite (np_put_mask_select (λ x, 0 <? x) (λ x, 2 * np_pi / x))
    by apply np_zeros_length.
  by rewrite zip_with_zeros.
Qed.

End WaveFacts.

Section WaveClaims.
Variables np_tanh np_sinh : float → float.
Variable fsolve : (float → float) → float → float.

#[local] Open Scope float_scope.

Lemma eq_zero_not_pos (l : float) : (l =? 0) = true → (0 <? l) = false.
Proof.
  rewrite FloatAxioms.eqb_spec, FloatAxioms.ltb_spec.
  change (Prim2SF 0) with (S754_zero false).
  destruct (Prim2SF l) as [s|s| |s m e]; try destruct s; cbn; congruence.
Qed.

(** C5: whenever [wave_length] returns its array, [wave_number] returns
    an array of the same length, and at every node [i] the wave number is
    [2π / wave_length[i]] when [wave_length[i] > 0] and [0] when
    [wave_length[i] == 0]. *)
Theorem wave_number_of_wave_length (self : Reef1D) (L : list float) :
  wave_length np_tanh fsolve self = Return L →
  ∃ k : list float,
    wave_number np_tanh fsolve self = Return k
    ∧ length k = length L
    ∧ ∀ (i : nat) (l : float), L !! i = Some l →
        ((0 <? l) = true → k !! i = Some (2 * np_pi / l))
        ∧ ((l =? 0) = true → k !! i = Some 0).
Proof.
  intros HL. eexists.
  split; [exact (wave_number_set np_tanh fsolve self L HL)|].
  split; [by rewrite length_fmap|].
  intros i l Hl. rewrite list_lookup_fmap, Hl. simpl.
  unfold node_wave_number. split; intros Hc.
  - by rewrite Hc.
  - by rewrite (eq_zero_not_pos l Hc).
Qed.

(** C1: at a node whose depth is not positive, [wave_length] and
    [wave_number] are [0], and no property raises; but [group_celerity]
    divides [2·k·depth] by [sinh(k·depth)], zero by zero, so its entry
    there is NaN and not [0]. *)
Theorem dry_node_wave_field (self : Reef1D) (b d : list float) (T h : float)
    (i : nat) :
  np_sinh 0 = 0 → np_sinh (-0) = -0 →
  bath self = Some b → Tp self = Some T →
  depth self = Return d → d !! i = Some h → (h <=? 0) = true →
  ∃ L k cg : list float,
    wave_length np_tanh fsolve self = Return L ∧ L !! i = Some 0
    ∧ wave_number np_tanh fsolve self = Return k ∧ k !! i = Some 0
    ∧ group_celerity np_tanh np_sinh fsolve self = Return cg
    ∧ cg !! i = Some nan.
Proof.
  intros S0 S1 Hb HT Hd Hi Hh.
  pose proof (wave_length_set np_tanh fsolve self b T Hb HT) as HL.
  pose proof (wave_number_set np_tanh fsolve self _ HL) as Hk.
  rewrite (depth_set self b Hb) in Hd. injection Hd as <-.
  assert (HLi : (node_wave_length np_tanh fsolve T <$> ((λ x, x + 0) <$> b)) !! i
                = Some 0).
  { rewrite list_lookup_fmap, Hi. simpl. unfold node_wave_length.
    by rewrite (nonpos_not_pos h Hh). }
  assert (Hki : (node_wave_number
                   <$> (node_wave_length np_tanh fsolve T
                          <$> ((λ x, x + 0) <$> b))) !! i = Some 0).
  { by rewrite list_lookup_fmap, HLi. }
  eexists _, _, _. repeat split; [exact HL|exact HLi|exact Hk|exact Hki| |].
  - unfold group_celerity, wave_celerity, per_wav.
    rewrite Hk, HL, HT, (depth_set self b Hb). reflexivity.
  - rewrite <- (group_factor_dry np_sinh h (0 / T) S0 S1 Hh).
    apply lookup_map2; [do 2 apply lookup_fmap_at; apply lookup_map2|].
    + apply lookup_map2; [by apply lookup_fmap_at | exact Hi].
    + apply lookup_fmap_at, lookup_map2; [exact Hki | exact Hi].
    + by apply (lookup_fmap_at (λ x, x / T)).
Qed.

End WaveClaims.

(** On the scenario [bath = [-1, 0, 3]], [Tp = 8]. *)
Lemma wave_number_of_wave_length_witness :
  wave_length example_tanh example_fsolve reef_dry_nodes
  = Return [0%float; 0%float; 0x1.546c32e980e1fp+5%float]
  ∧ ∃ k : list float,
      wave_number example_tanh example_fsolve reef_dry_nodes = Return k
      ∧ length k = 3%nat
      ∧ ∀ (i : nat) (l : float),
          [0%float; 0%float; 0x1.546c32e980e1fp+5%float] !! i = Some l →
          ((0 <? l)%float = true → k !! i = Some (2 * np_pi / l)%float)
          ∧ ((l =? 0)%float = true → k !! i = Some 0%float).
Proof.
  split; [vm_compute; reflexivity|].
  apply (wave_number_of_wave_length example_tanh example_fsolve reef_dry_nodes
           [0%float; 0%float; 0x1.546c32e980e1fp+5%float]).
  vm_compute; reflexivity.
Defined.

(** At the first node of the same scenario, of depth [-1]. *)
Lemma dry_node_wave_field_witness :
  (example_sinh 0 = 0)%float
  ∧ (example_sinh (-0) = -0)%float
  ∧ depth reef_dry_nodes = Return [(-1)%float; 0%float; 3%float]
  ∧ ((-1) <=? 0)%float = true
  ∧ ∃ L k cg : list float,
      wave_length example_tanh example_fsolve reef_dry_nodes = Return L
      ∧ L !! 0%nat = Some 0%float
      ∧ wave_number example_tanh example_fsolve reef_dry_nodes = Return k
      ∧ k !! 0%nat = Some 0%float
      ∧ group_celerity example_tanh example_sinh example_fsolve reef_dry_nodes
        = Return cg
      ∧ cg !! 0%nat = Some nan.
Proof.
  do 4 (split; [reflexivity|]).
  apply (dry_node_wave_field example_tanh example_sinh example_fsolve
           reef_dry_nodes [(-1)%float; 0%float; 3%float]
           [(-1)%float; 0%float; 3%float] 8%float (-1)%float 0%nat);
    reflexivity.
Defined.

(** ** Coordinates *)

Lemma mapM_Return {A B} (f : A → outcome B) (g : A → B) (l : list A) :
  (∀ x, x ∈ l → f x = Return (g x)) →
  mapM f l = Return (g <$> l).
Proof.
  induction l as [|x l IH]; intros Hf; [done|].
  simpl. rewrite (Hf x) by left. simpl.
  rewrite IH; [done|]. intros y Hy. apply Hf. by right.
Qed.

(** A row of [np.array(rows)]: the row given, converted to the dtype of
    the array. *)
Lemma np_getrow_array2 (rows : list (scalar * scalar)) (i : nat) :
  np_getrow (np_array2 rows) i
  = (λ r, if forallb int_row rows
          then (PyInt (int_value r.1), PyInt (int_value r.2))
          else (PyFloat (to_float r.1), PyFloat (to_float r.2))) <$> rows !! i.
Proof.
  destruct rows as [|r rows]; [done|].
  unfold np_array2.
  destruct (forallb int_row (r :: rows)); unfold np_getrow;
    rewrite list_lookup_fmap; by destruct ((r :: rows) !! i) as [[? ?]|].
Qed.

Lemma np_len2_array2 (rows : list (scalar * scalar)) :
  np_len2 (np_array2 rows) = length rows.
Proof.
  destruct rows as [|r rows]; [done|].
  unfold np_array2.
  destruct (forallb _ (r :: rows)); simpl; by rewrite length_fmap.
Qed.

Lemma forallb_lookup {A} (p : A → bool) (l : list A) (i : nat) (x : A) :
  forallb p l = true → l !! i = Some x → p x = true.
Proof.
  intros Hall Hx. apply (proj1 (forallb_forall p l) Hall).
  apply list_elem_of_In. by eapply list_elem_of_lookup_2.
Qed.

Lemma np_getitem_item (a : ndarray) (i : nat) :
  (i < np_len a)%nat → np_getitem a i = Return (np_item a i).
Proof.
  intros Hi. destruct a as [l|l]; simpl in *;
    destruct (lookup_lt_is_Some_2 l i Hi) as [x ->]; done.
Qed.

Lemma np_getitem_Return (a : ndarray) (i : nat) (x : scalar) :
  np_getitem a i = Return x → (i < np_len a)%nat ∧ x = np_item a i.
Proof.
  destruct a as [l|l]; simpl; destruct (l !! i) eqn:E; simpl; intros H;
    simplify_eq; split; try done; by eapply lookup_lt_Some.
Qed.

(** The rows [xy_coordinates] collects before [np.array] is applied. *)
Lemma xy_rows (self : Reef1D) (xs : ndarray) :
  x_coordinates self = Return (Some xs) →
  xy_coordinates self
  = Return (Some (np_array2 ((λ i, (np_item xs i, PyInt 0))
                               <$> seq 0 (np_len xs)))).
Proof.
  intros Hx. unfold xy_coordinates. rewrite Hx. simpl.
  rewrite (mapM_Return _ (λ i, (np_item xs i, PyInt 0))); [done|].
  intros i Hi. apply elem_of_seq in Hi.
  rewrite np_getitem_item by lia. done.
Qed.

(** C6: where [x_coordinates] is an array, [y_coordinates] is the
    one-entry array [[0]], [xy_coordinates] has one row per entry of
    [x_coordinates], and row [i] is [x_coordinates[i]] paired with an entry
    equal to [y_coordinates[0]]. *)
Theorem xy_coordinates_pairs (self : Reef1D) (xs : ndarray) :
  x_coordinates self = Return (Some xs) →
  y_coordinates self = Int64Array [0]
  ∧ ∃ xy : ndarray2,
      xy_coordinates self = Return (Some xy)
      ∧ np_len2 xy = np_len xs
      ∧ ∀ (i : nat) (xi : scalar), np_getitem xs i = Return xi →
          ∃ (r : scalar * scalar) (y0 : scalar),
            np_getrow xy i = Some r
            ∧ np_getitem (y_coordinates self) 0 = Return y0
            ∧ r.1 = xi ∧ np_equal r.2 y0 = true.
Proof.
  intros Hx. split; [done|].
  eexists. split; [exact (xy_rows self xs Hx)|].
  split; [by rewrite np_len2_array2, length_fmap, length_seq|].
  intros i xi Hxi. apply np_getitem_Return in Hxi as [Hi ->].
  rewrite np_getrow_array2.
  set (rows := (λ i, (np_item xs i, PyInt 0)) <$> seq 0 (np_len xs)).
  assert (Hrow : rows !! i = Some (np_item xs i, PyInt 0)).
  { unfold rows. rewrite list_lookup_fmap, lookup_seq_lt by done. done. }
  rewrite Hrow. simpl.
  destruct (forallb int_row rows) eqn:Hall.
  - pose proof (forallb_lookup _ _ _ _ Hall Hrow) as Hint.
    eexists _, _. repeat split. simpl.
    destruct xs as [l|l]; simpl in *; done.
  - eexists _, _. repeat split. simpl.
    destruct xs as [l|l]; simpl.
    + exfalso. assert (forallb int_row rows = true); [|congruence].
      apply forallb_forall. intros r Hr.
      apply list_elem_of_In, list_elem_of_fmap in Hr as (j & -> & _). done.
    + done.
Qed.

Lemma xy_coordinates_pairs_witness :
  x_coordinates reef_dry_nodes = Return (Some (Int64Array [0]))
  ∧ y_coordinates reef_dry_nodes = Int64Array [0]
  ∧ ∃ xy : ndarray2,
      xy_coordinates reef_dry_nodes = Return (Some xy)
      ∧ np_len2 xy = np_len (Int64Array [0])
      ∧ ∀ (i : nat) (xi : scalar),
          np_getitem (Int64Array [0]) i = Return xi →
          ∃ (r : scalar * scalar) (y0 : scalar),
            np_getrow xy i = Some r
            ∧ np_getitem (y_coordinates reef_dry_nodes) 0 = Return y0
            ∧ r.1 = xi ∧ np_equal r.2 y0 = true.
Proof.
  split; [reflexivity|].
  apply (xy_coordinates_pairs reef_dry_nodes (Int64Array [0])). reflexivity.
Defined.

Lemma zrange_length (n : Z) : length (zrange n) = Z.to_nat n.
Proof. unfold zrange. by rewrite length_fmap, length_seq. Qed.

Lemma zrange_lookup (n : Z) (i : nat) :
  (i < Z.to_nat n)%nat → zrange n !! i = Some (Z.of_nat i).
Proof.
  intros Hi. unfold zrange. by rewrite list_lookup_fmap, lookup_seq_lt.
Qed.

(** With an integer spacing [d > 0] over [n] nodes, [x_coordinates] is
    [0, d, 2d, …] up to but not including [n]: its length [len] is the
    ceiling of [n / d], not [n]. *)
Lemma x_coordinates_int_step (self : Reef1D) (b : list float) (d : Z) :
  bath self = Some b → dx self = Some (PyInt d) → 0 < d →
  ∃ xs : list Z,
    x_coordinates self = Return (Some (Int64Array xs))
    ∧ (Z.of_nat (length xs) - 1) * d < Z.of_nat (length b)
    ∧ Z.of_nat (length b) ≤ Z.of_nat (length xs) * d
    ∧ ∀ i : nat, (i < length xs)%nat → xs !! i = Some (Z.of_nat i * d).
Proof.
  intros Hb Hd Hpos. unfold x_coordinates, space. rewrite Hb, Hd. simpl.
  destruct (Z.eqb_spec d 0) as [?|_]; [lia|]. simpl.
  eexists. split; [reflexivity|].
  rewrite length_fmap, zrange_length.
  assert (Hn : 0 ≤ Z.of_nat (length b)) by lia.
  revert Hn. generalize (Z.of_nat (length b)). intros n Hn.
  pose proof (Z.mul_div_le (- n) d Hpos) as Hlo.
  pose proof (Z.mul_succ_div_gt (- n) d Hpos) as Hhi.
  revert Hlo Hhi. generalize (- n / d). intros q Hlo Hhi.
  assert (0 ≤ - q) by nia.
  rewrite Z2Nat.id by done.
  repeat split; [nia|nia|].
  intros i Hi. by rewrite list_lookup_fmap, zrange_lookup.
Qed.

(** C4: for [bath = [5, 5, 5, 5, 5]] and [dx = 10] the model has five
    nodes, but [np.arange(0, space, dx)] stops below [space], not below
    [space · dx]: [x_coordinates] is the single position [0]. *)
Theorem x_coordinates_five_nodes_dx10 :
  space (reef_five_nodes (PyInt 10)) = Some 5%nat
  ∧ x_coordinates (reef_five_nodes (PyInt 10)) = Return (Some (Int64Array [0]))
  ∧ x_coordinates (reef_five_nodes (PyFloat 10))
    = Return (Some (Float64Array [0%float])).
Proof. repeat split; vm_compute; reflexivity. Qed.

(** ** The stored water depth *)

(** C7: reading [water_depth] returns the stored value, whatever it is: the
    depth sequence when one is set, [None] when none is; it never raises. *)
Theorem water_depth_is_stored_field (self : Reef1D) :
  get_water_depth self = Return (water_depth self).
Proof. reflexivity. Qed.

(** On a fresh model the attribute is [None], and reading it returns that
    [None] without an error; raising is what the protocol's own body does,
    which [Reef1D] does not inherit. *)
Lemma water_depth_unset_returns_none :
  water_depth Reef1D_default = None
  ∧ get_water_depth Reef1D_default = Return None
  ∧ is_raise (get_water_depth Reef1D_default) = false
  ∧ HydrodynamicProtocol.water_depth Reef1D_default = Raise NotImplementedError.
Proof. by repeat split. Qed.

(** ** Lifecycle *)

Section LifecycleClaims.
Context {Coral : Type}.
Implicit Types (w : World Coral) (storm : storm_arg).

(** What a call of [update] gives: the tuple chosen by the storm flag, and
    the objects it was given. *)
Lemma update_unfold w storm :
  update storm w
  = (Return (if truthy storm then [None; None] else [None; None; None]), w).
Proof. unfold update. by destruct (truthy storm). Qed.

Lemma perform_unchanged (c : call) w : (perform c w).2 = w.
Proof. destruct c as [|storm|]; simpl; [done| |done]. by rewrite update_unfold. Qed.

Lemma after_unchanged (calls : list call) w : after calls w = w.
Proof.
  unfold after. revert w.
  induction calls as [|c calls IH]; intros w; [done|].
  simpl. by rewrite perform_unchanged.
Qed.

(** C3: [update] returns a tuple of two entries when [storm] is truthy
    and of three entries when it is not, whatever the model and the
    coral. *)
Theorem update_tuple_arity w storm :
  ∃ t : pytuple,
    (update storm w).1 = Return t
    ∧ length t = if truthy storm then 2%nat else 3%nat.
Proof.
  rewrite update_unfold. eexists. split; [reflexivity|].
  by destruct (truthy storm).
Qed.

(** C8: [update] leaves the model and the coral as they were. *)
Theorem update_frame w storm :
  (update storm w).2 = w
  ∧ reef (update storm w).2 = reef w
  ∧ coral (update storm w).2 = coral w.
Proof. by rewrite update_unfold. Qed.

(** C9: a second [update] with the same argument, on the objects as the
    first call left them, returns what the first call returned. *)
Theorem update_deterministic w storm :
  (update storm (update storm w).2).1 = (update storm w).1
  ∧ (update storm (update storm w).2).2 = (update storm w).2.
Proof. by rewrite !update_unfold. Qed.

(** C10: [initiate] and [finalise] raise [NotImplementedError] in every
    state and leave the objects as they were; neither ever returns. *)
Theorem initiate_finalise_not_implemented w :
  initiate w = (Raise NotImplementedError, w)
  ∧ finalise w = (Raise NotImplementedError, w)
  ∧ is_raise (initiate w).1 = true
  ∧ is_raise (finalise w).1 = true.
Proof. by repeat split. Qed.

(** C2: [update] keeps no lifecycle state and checks none: after any
    sequence of lifecycle calls, also an empty one (no [initiate] yet)
    and one containing [finalise], it returns its tuple and raises
    nothing. *)
Theorem update_ignores_lifecycle (calls : list call) w storm :
  ∃ t : pytuple,
    (update storm (after calls w)).1 = Return t
    ∧ is_raise (update storm (after calls w)).1 = false.
Proof. rewrite update_unfold. by eexists. Qed.

End LifecycleClaims.

(** On a fresh model, where [initiate] has not been called, and again after
    a call of [finalise], [update] returns a tuple instead of failing. *)
Lemma update_out_of_order_returns :
  (update (StormBool false) fresh_world).1 = Return [None; None; None]
  ∧ is_raise (update (StormBool false) fresh_world).1 = false
  ∧ (finalise fresh_world).1 = Raise NotImplementedError
  ∧ (update (StormBool true) (after [Finalise] fresh_world)).1
    = Return [None; None]
  ∧ is_raise (update (StormBool true) (after [Finalise] fresh_world)).1 = false.
Proof. by repeat split. Qed.

(** * Further properties of the model *)

(** ** More facts about binary64 arithmetic *)

Section MoreFloatFacts.
#[local] Open Scope float_scope.

Lemma zero_div_pos (T : float) : (0 <? T) = true → 0 / T = 0.
Proof.
  rewrite FloatAxioms.ltb_spec. intros H.
  apply Prim2SF_inj. rewrite div_spec.
  change (Prim2SF 0) with (S754_zero false) in *.
  destruct (Prim2SF T) as [s|s| |s m e]; try destruct s; cbn in *; congruence.
Qed.

Lemma zero_div_zero (T : float) : (T =? 0) = true → 0 / T = nan.
Proof.
  rewrite FloatAxioms.eqb_spec. intros H.
  apply Prim2SF_inj. rewrite div_spec.
  change (Prim2SF 0) with (S754_zero false) in *.
  destruct (Prim2SF T) as [s|s| |s m e]; try destruct s; cbn in *; congruence.
Qed.

Lemma add_zero_nonzero (x : float) : (x =? 0) = false → x + 0 = x.
Proof.
  rewrite FloatAxioms.eqb_spec. intros H.
  apply Prim2SF_inj. rewrite add_spec.
  change (Prim2SF 0) with (S754_zero false) in *.
  destruct (Prim2SF x) as [s|s| |s m e]; try destruct s; cbn in *; congruence.
Qed.

Lemma add_zero_zero (x : float) : (x =? 0) = true → x + 0 = 0.
Proof.
  rewrite FloatAxioms.eqb_spec. intros H.
  apply Prim2SF_inj. rewrite add_spec.
  change (Prim2SF 0) with (S754_zero false) in *.
  destruct (Prim2SF x) as [s|s| |s m e]; try destruct s; cbn in *; congruence.
Qed.



End MoreFloatFacts.

(** ** The wave field of a configured model *)

Lemma zip_with_fmap_same {A B C D} (f : B → C → D) (g : A → B) (h : A → C)
    (l : list A) :
  zip_with f (g <$> l) (h <$> l) = (λ x, f (g x) (h x)) <$> l.
Proof. induction l as [|x l IH]; [done|]. csimpl. by f_equal. Qed.

Section WaveField.
Variables np_tanh np_sinh : float → float.
Variable fsolve : (float → float) → float → float.

#[local] Open Scope float_scope.

Lemma wave_celerity_set (self : Reef1D) (b : list float) (T : float) :
  bath self = Some b → Tp self = Some T →
  wave_celerity np_tanh fsolve self
  = Return ((λ h, node_wave_length np_tanh fsolve T h / T)
              <$> ((λ x, x + 0) <$> b)).
Proof.
  intros Hb HT. unfold wave_celerity, per_wav.
  rewrite (wave_length_set np_tanh fsolve self b T Hb HT), HT. simpl.
  by rewrite <- list_fmap_compose.
Qed.

(** [group_celerity] is computed node by node from the depth of the node
    and the period alone. *)
Lemma group_celerity_set (self : Reef1D) (b : list float) (T : float) :
  bath self = Some b → Tp self = Some T →
  group_celerity np_tanh np_sinh fsolve self
  = Return (node_group_celerity np_tanh np_sinh fsolve T
              <$> ((λ x, x + 0) <$> b)).
Proof.
  intros Hb HT.
  pose proof (wave_length_set np_tanh fsolve self b T Hb HT) as HL.
  unfold group_celerity.
  rewrite (wave_number_set np_tanh fsolve self _ HL), (depth_set self b Hb).
  rewrite (wave_celerity_set self b T Hb HT). simpl. f_equal.
  set (d := (λ x, x + 0) <$> b). unfold np_map2.
  rewrite <- !list_fmap_compose.
  rewrite (zip_with_fmap_l _ _ _ d), (zip_with_diag _ d).
  rewrite (zip_with_fmap_l _ _ _ d), (zip_with_diag _ d).
  rewrite <- !list_fmap_compose.
  rewrite (zip_with_fmap_same PrimFloat.div), <- !list_fmap_compose.
  by rewrite (zip_with_fmap_same PrimFloat.mul).
Qed.

(** Where [depth] returns, the bathymetry is set; where [wave_length]
    returns, bathymetry and period are. *)
Lemma depth_returns (self : Reef1D) (d : list float) :
  depth self = Return d →
  ∃ b : list float, bath self = Some b ∧ d = (λ x, x + 0) <$> b.
Proof.
  unfold depth. destruct (bath self) as [b|]; [|done].
  simpl. intros [= <-]. by exists b.
Qed.

Lemma wave_length_returns (self : Reef1D) (L : list float) :
  wave_length np_tanh fsolve self = Return L →
  ∃ (b : list float) (T : float),
    bath self = Some b ∧ Tp self = Some T
    ∧ L = node_wave_length np_tanh fsolve T <$> ((λ x, x + 0) <$> b).
Proof.
  intros HL.
  destruct (Tp self) as [T|] eqn:HT.
  2:{ unfold wave_length, per_wav in HL. by rewrite HT in HL. }
  destruct (bath self) as [b|] eqn:Hb.
  2:{ unfold wave_length, per_wav, depth in HL. by rewrite HT, Hb in HL. }
  exists b, T. repeat split.
  rewrite (wave_length_set np_tanh fsolve self b T Hb HT) in HL.
  by injection HL as <-.
Qed.

End WaveField.

Section WaveExtras.
Variables np_tanh np_sinh : float → float.
Variable fsolve : (float → float) → float → float.

#[local] Open Scope float_scope.

(** X2: the wave field at a node depends on the depth of that node and on
    the period only.  Where [wave_length] returns on two models with the
    same period (or twice on one model), two nodes of equal depth have the
    same wave length, wave number, celerity and group celerity. *)
Theorem wave_field_node_independent (self1 self2 : Reef1D)
    (L1 L2 d1 d2 : list float) (T h : float) (i j : nat) :
  Tp self1 = Some T → Tp self2 = Some T →
  wave_length np_tanh fsolve self1 = Return L1 →
  wave_length np_tanh fsolve self2 = Return L2 →
  depth self1 = Return d1 → depth self2 = Return d2 →
  d1 !! i = Some h → d2 !! j = Some h →
  ∃ k1 k2 c1 c2 g1 g2 : list float,
    wave_number np_tanh fsolve self1 = Return k1
    ∧ wave_number np_tanh fsolve self2 = Return k2
    ∧ wave_celerity np_tanh fsolve self1 = Return c1
    ∧ wave_celerity np_tanh fsolve self2 = Return c2
    ∧ group_celerity np_tanh np_sinh fsolve self1 = Return g1
    ∧ group_celerity np_tanh np_sinh fsolve self2 = Return g2
    ∧ is_Some (L1 !! i) ∧ L1 !! i = L2 !! j ∧ k1 !! i = k2 !! j
    ∧ c1 !! i = c2 !! j ∧ g1 !! i = g2 !! j.
Proof.
  intros HT1 HT2 HL1 HL2 Hd1 Hd2 Hi Hj.
  destruct (depth_returns self1 d1 Hd1) as (b1 & Hb1 & ->).
  destruct (depth_returns self2 d2 Hd2) as (b2 & Hb2 & ->).
  pose proof HL1 as HL1'. pose proof HL2 as HL2'.
  rewrite (wave_length_set np_tanh fsolve self1 b1 T Hb1 HT1) in HL1'.
  rewrite (wave_length_set np_tanh fsolve self2 b2 T Hb2 HT2) in HL2'.
  injection HL1' as <-. injection HL2' as <-.
  eexists _, _, _, _, _, _.
  split; [exact (wave_number_set np_tanh fsolve self1 _ HL1)|].
  split; [exact (wave_number_set np_tanh fsolve self2 _ HL2)|].
  split; [exact (wave_celerity_set np_tanh fsolve self1 b1 T Hb1 HT1)|].
  split; [exact (wave_celerity_set np_tanh fsolve self2 b2 T Hb2 HT2)|].
  split; [exact (group_celerity_set np_tanh np_sinh fsolve self1 b1 T Hb1 HT1)|].
  split; [exact (group_celerity_set np_tanh np_sinh fsolve self2 b2 T Hb2 HT2)|].
  pose proof (lookup_fmap_at (node_wave_length np_tanh fsolve T) _ _ _ Hi)
    as HLi.
  pose proof (lookup_fmap_at (node_wave_length np_tanh fsolve T) _ _ _ Hj)
    as HLj.
  split; [by rewrite HLi|]. split; [by rewrite HLi, HLj|].
  split.
  { by rewrite (lookup_fmap_at _ _ _ _ HLi), (lookup_fmap_at _ _ _ _ HLj). }
  split; by rewrite (lookup_fmap_at _ _ _ _ Hi), (lookup_fmap_at _ _ _ _ Hj).
Qed.

(** X3: wherever the wave length is not positive, be it zero, negative or
    NaN (a solver that did not converge), the wave number is [0]: the
    division [2π / wave_length] is never taken there. *)
Theorem wave_number_zero_unless_positive (self : Reef1D) (L : list float)
    (i : nat) (l : float) :
  wave_length np_tanh fsolve self = Return L →
  L !! i = Some l → (0 <? l) = false →
  ∃ k : list float,
    wave_number np_tanh fsolve self = Return k ∧ k !! i = Some 0.
Proof.
  intros HL Hl Hneg. eexists.
  split; [exact (wave_number_set np_tanh fsolve self L HL)|].
  rewrite list_lookup_fmap, Hl. simpl. unfold node_wave_number.
  by rewrite Hneg.
Qed.

(** X4: where [wave_length] returns and the period is positive, the wave
    celerity is [0] at every node whose depth is not positive. *)
Theorem wave_celerity_dry_zero (self : Reef1D) (L d : list float) (T h : float)
    (i : nat) :
  wave_length np_tanh fsolve self = Return L →
  Tp self = Some T → (0 <? T) = true →
  depth self = Return d → d !! i = Some h → (h <=? 0) = true →
  ∃ c : list float,
    wave_celerity np_tanh fsolve self = Return c ∧ c !! i = Some 0.
Proof.
  intros _ HT Hpos Hd Hi Hh.
  destruct (depth_returns self d Hd) as (b & Hb & ->). eexists.
  split; [exact (wave_celerity_set np_tanh fsolve self b T Hb HT)|].
  rewrite list_lookup_fmap, Hi. simpl. unfold node_wave_length.
  rewrite (nonpos_not_pos h Hh). by rewrite zero_div_pos.
Qed.

(** X5: where [wave_length] returns, the group celerity at every node is
    [0.5·(1 + 2·k·h / sinh(k·h)) · (L / Tp)] for the depth [h], the wave
    number [k] and the wave length [L] of that same node. *)
Theorem group_celerity_nodewise (self : Reef1D) (L d : list float)
    (T h l : float) (i : nat) :
  wave_length np_tanh fsolve self = Return L → Tp self = Some T →
  depth self = Return d → d !! i = Some h → L !! i = Some l →
  ∃ (k cg : list float) (kk : float),
    wave_number np_tanh fsolve self = Return k ∧ k !! i = Some kk
    ∧ group_celerity np_tanh np_sinh fsolve self = Return cg
    ∧ cg !! i = Some (0.5 * (1 + (2 * kk * h) / np_sinh (kk * h)) * (l / T)).
Proof.
  intros HL HT Hd Hi Hl.
  destruct (depth_returns self d Hd) as (b & Hb & ->).
  pose proof HL as HL'.
  rewrite (wave_length_set np_tanh fsolve self b T Hb HT) in HL'.
  injection HL' as <-.
  rewrite list_lookup_fmap, Hi in Hl. injection Hl as <-.
  eexists _, _, _.
  split; [exact (wave_number_set np_tanh fsolve self _ HL)|].
  split; [by rewrite list_lookup_fmap, list_lookup_fmap, Hi|].
  split; [exact (group_celerity_set np_tanh np_sinh fsolve self b T Hb HT)|].
  by rewrite list_lookup_fmap, Hi.
Qed.

(** X6: on a model whose bathymetry or period is unset, none of
    [wave_length], [wave_number], [wave_celerity] and [group_celerity]
    returns: each raises, and where the period is unset each raises
    [TypeError]. *)
Theorem wave_field_unconfigured (self : Reef1D) :
  bath self = None ∨ Tp self = None →
  (is_raise (wave_length np_tanh fsolve self) = true
   ∧ is_raise (wave_number np_tanh fsolve self) = true
   ∧ is_raise (wave_celerity np_tanh fsolve self) = true
   ∧ is_raise (group_celerity np_tanh np_sinh fsolve self) = true)
  ∧ (Tp self = None →
     wave_length np_tanh fsolve self = Raise TypeError
     ∧ wave_number np_tanh fsolve self = Raise TypeError
     ∧ wave_celerity np_tanh fsolve self = Raise TypeError
     ∧ group_celerity np_tanh np_sinh fsolve self = Raise TypeError).
Proof.
  intros Hu.
  assert (Hprop : ∀ e, wave_length np_tanh fsolve self = Raise e →
            wave_number np_tanh fsolve self = Raise e
            ∧ wave_celerity np_tanh fsolve self = Raise e
            ∧ group_celerity np_tanh np_sinh fsolve self = Raise e).
  { intros e HL. unfold group_celerity, wave_number, wave_celerity.
    by rewrite HL. }
  split.
  - destruct (wave_length np_tanh fsolve self) as [L|e] eqn:HL.
    + destruct (wave_length_returns np_tanh fsolve self L HL)
        as (b & T & Hb & HT & _).
      destruct Hu; congruence.
    + destruct (Hprop e eq_refl) as (-> & -> & ->). done.
  - intros HT.
    assert (HL : wave_length np_tanh fsolve self = Raise TypeError).
    { unfold wave_length, per_wav. by rewrite HT. }
    split; [exact HL|]. by apply Hprop.
Qed.

(** X7: where [wave_length] returns, [depth] and the other three wave
    properties return too, and all five arrays have exactly one entry per
    node ([space] entries). *)
Theorem wave_field_aligned (self : Reef1D) (L : list float) :
  wave_length np_tanh fsolve self = Return L →
  ∃ d k c cg : list float,
    depth self = Return d
    ∧ wave_number np_tanh fsolve self = Return k
    ∧ wave_celerity np_tanh fsolve self = Return c
    ∧ group_celerity np_tanh np_sinh fsolve self = Return cg
    ∧ space self = Some (length L)
    ∧ length d = length L ∧ length k = length L
    ∧ length c = length L ∧ length cg = length L.
Proof.
  intros HL.
  destruct (wave_length_returns np_tanh fsolve self L HL)
    as (b & T & Hb & HT & ->).
  eexists _, _, _, _.
  split; [exact (depth_set self b Hb)|].
  split; [exact (wave_number_set np_tanh fsolve self _ HL)|].
  split; [exact (wave_celerity_set np_tanh fsolve self b T Hb HT)|].
  split; [exact (group_celerity_set np_tanh np_sinh fsolve self b T Hb HT)|].
  unfold space. rewrite Hb, !length_fmap. by repeat split.
Qed.

End WaveExtras.

(** X8: [depth] raises [TypeError] on a model without bathymetry; with a
    bathymetry it has one entry per node, each the bathymetry value itself
    (the water level is [0]), a zero of either sign read as [+0.0]. *)
Theorem depth_is_bathymetry (self : Reef1D) :
  (bath self = None → depth self = Raise TypeError)
  ∧ ∀ b : list float, bath self = Some b →
      ∃ d : list float,
        depth self = Return d ∧ length d = length b
        ∧ ∀ (i : nat) (x : float), b !! i = Some x →
            d !! i = Some (if (x =? 0)%float then 0%float else x).
Proof.
  split.
  - unfold depth. by intros ->.
  - intros b Hb. eexists. split; [exact (depth_set self b Hb)|].
    split; [by rewrite length_fmap|].
    intros i x Hx. rewrite list_lookup_fmap, Hx. simpl. f_equal.
    destruct (x =? 0)%float eqn:E.
    + by apply add_zero_zero.
    + by apply add_zero_nonzero.
Qed.

Section ZeroPeriod.
Variables np_tanh : float → float.
Variable fsolve : (float → float) → float → float.

#[local] Open Scope float_scope.

(** X9: with a period of zero, [wave_celerity], an array divided by the
    period, raises nothing and is NaN at every node whose depth is not
    positive. *)
Theorem wave_celerity_zero_period (self : Reef1D) (b : list float)
    (T h : float) (i : nat) :
  bath self = Some b → Tp self = Some T → (T =? 0) = true →
  ((λ x, x + 0) <$> b) !! i = Some h → (h <=? 0) = true →
  ∃ c : list float,
    wave_celerity np_tanh fsolve self = Return c ∧ c !! i = Some nan.
Proof.
  intros Hb HT Hz Hi Hh. eexists.
  split; [exact (wave_celerity_set np_tanh fsolve self b T Hb HT)|].
  rewrite list_lookup_fmap, Hi. simpl. unfold node_wave_length.
  rewrite (nonpos_not_pos h Hh). by rewrite zero_div_zero.
Qed.

End ZeroPeriod.

(** ** More on the coordinates *)

(** X10: [x_coordinates] is [None] exactly when the bathymetry or the
    spacing is unset, and [xy_coordinates] is [None] exactly then. *)
Theorem coordinates_none_iff_unset (self : Reef1D) :
  (x_coordinates self = Return None ↔ bath self = None ∨ dx self = None)
  ∧ (xy_coordinates self = Return None ↔ bath self = None ∨ dx self = None).
Proof.
  assert (Hx : x_coordinates self = Return None
               ↔ bath self = None ∨ dx self = None).
  { unfold x_coordinates, space.
    destruct (bath self) as [b|], (dx self) as [d|]; simpl;
      try (split; [by auto|done]).
    split; [|by intros [|]].
    destruct (np_arange (Z.of_nat (length b)) d); done. }
  split; [exact Hx|]. rewrite <- Hx.
  unfold xy_coordinates.
  destruct (x_coordinates self) as [[xs|]|e] eqn:E; simpl; [|done|done].
  split; [|done].
  rewrite (mapM_Return _ (λ i, (np_item xs i, PyInt 0))); [done|].
  intros i Hi. apply elem_of_seq in Hi.
  by rewrite np_getitem_item by lia.
Qed.

(** X11: [xy_coordinates] raises exactly when [x_coordinates] does, and
    then the same exception: its own indexing never fails. *)
Theorem xy_coordinates_raises_iff (self : Reef1D) (e : exn) :
  xy_coordinates self = Raise e ↔ x_coordinates self = Raise e.
Proof.
  destruct (x_coordinates self) as [[xs|]|e'] eqn:E.
  - rewrite (xy_rows self xs E). split; discriminate.
  - unfold xy_coordinates. rewrite E. simpl. split; discriminate.
  - unfold xy_coordinates. rewrite E. simpl. split; congruence.
Qed.

(** X12: a spacing equal to zero, as an [int] or as a [float] of either
    sign, makes [x_coordinates] and [xy_coordinates] raise
    [ZeroDivisionError]. *)
Theorem coordinates_zero_spacing (self : Reef1D) (b : list float) (d : scalar) :
  bath self = Some b → dx self = Some d → np_equal d (PyInt 0) = true →
  x_coordinates self = Raise ZeroDivisionError
  ∧ xy_coordinates self = Raise ZeroDivisionError.
Proof.
  intros Hb Hd Hz.
  assert (Hx : x_coordinates self = Raise ZeroDivisionError).
  { unfold x_coordinates, space. rewrite Hb, Hd.
    destruct d as [z|f]; simpl in *.
    - by rewrite Hz.
    - change (float_of_Z 0) with 0%float in Hz. by rewrite Hz. }
  split; [exact Hx|]. unfold xy_coordinates. by rewrite Hx.
Qed.

(** X13: with an integer spacing [dx > 0] that fits [int64],
    [x_coordinates] holds exactly the multiples of [dx] that lie in
    [[0, space)], in increasing order: entry [i] is [i·dx], and a multiple
    of [dx] below the node count is never left out. *)
Theorem x_coordinates_int_multiples (self : Reef1D) (b : list float) (d : Z) :
  bath self = Some b → dx self = Some (PyInt d) → 0 < d → d < 2 ^ 63 →
  ∃ xs : list Z,
    x_coordinates self = Return (Some (Int64Array xs))
    ∧ (∀ (i : nat) (x : Z), xs !! i = Some x →
         x = Z.of_nat i * d ∧ 0 ≤ x < Z.of_nat (length b))
    ∧ (∀ i : nat, Z.of_nat i * d < Z.of_nat (length b) →
         xs !! i = Some (Z.of_nat i * d)).
Proof.
  intros Hb Hd Hpos _.
  destruct (x_coordinates_int_step self b d Hb Hd Hpos)
    as (xs & Hx & Hlo & Hhi & Hent).
  exists xs. split; [exact Hx|]. split.
  - intros i x Hi. pose proof (lookup_lt_Some _ _ _ Hi) as Hlt.
    rewrite (Hent i Hlt) in Hi. injection Hi as <-. split; [done|]. nia.
  - intros i Hi. apply Hent. nia.
Qed.

(** X14: with the integer spacing [dx = 1], [x_coordinates] is
    [0, 1, …, space - 1]: one position per node. *)
Theorem x_coordinates_unit_spacing (self : Reef1D) (b : list float) :
  bath self = Some b → dx self = Some (PyInt 1) →
  ∃ xs : list Z,
    x_coordinates self = Return (Some (Int64Array xs))
    ∧ length xs = length b
    ∧ ∀ i : nat, (i < length b)%nat → xs !! i = Some (Z.of_nat i).
Proof.
  intros Hb Hd.
  destruct (x_coordinates_int_step self b 1 Hb Hd) as (xs & Hx & Hlo & Hhi & Hent);
    [lia|].
  exists xs. split; [exact Hx|].
  assert (Hlen : length xs = length b) by lia.
  split; [exact Hlen|].
  intros i Hi. rewrite (Hent i) by lia. f_equal. lia.
Qed.

(** X15: with an integer spacing [dx >= 2] on a model of at least two
    nodes, [x_coordinates] has fewer entries than the model has nodes. *)
Theorem x_coordinates_fewer_than_nodes (self : Reef1D) (b : list float) (d : Z) :
  bath self = Some b → dx self = Some (PyInt d) →
  2 ≤ d → (2 ≤ length b)%nat →
  ∃ xs : ndarray,
    x_coordinates self = Return (Some xs) ∧ (np_len xs < length b)%nat.
Proof.
  intros Hb Hd Hd2 Hn.
  destruct (x_coordinates_int_step self b d Hb Hd) as (xs & Hx & Hlo & Hhi & _);
    [lia|].
  exists (Int64Array xs). split; [exact Hx|]. simpl. nia.
Qed.

(** X16: with a negative integer spacing, [x_coordinates] and
    [xy_coordinates] are empty arrays; nothing is raised. *)
Theorem coordinates_negative_spacing (self : Reef1D) (b : list float) (d : Z) :
  bath self = Some b → dx self = Some (PyInt d) → d < 0 →
  x_coordinates self = Return (Some (Int64Array []))
  ∧ xy_coordinates self = Return (Some (Float64Array2 [])).
Proof.
  intros Hb Hd Hneg.
  assert (Hx : x_coordinates self = Return (Some (Int64Array []))).
  { unfold x_coordinates, space. rewrite Hb, Hd. simpl.
    destruct (Z.eqb_spec d 0) as [?|_]; [lia|]. simpl.
    unfold zrange.
    assert (Hq : 0 ≤ - Z.of_nat (length b) / d).
    { rewrite <- (Z.opp_involutive d) at 1.
      rewrite Z.div_opp_opp by lia. apply Z.div_pos; lia. }
    by replace (Z.to_nat (- (- Z.of_nat (length b) / d))) with 0%nat by lia. }
  split; [exact Hx|]. by rewrite (xy_rows self _ Hx).
Qed.

(** X17: whenever [x_coordinates] is a non-empty array, its first entry
    is [0], for an integer and for a float spacing alike. *)
Theorem x_coordinates_first_entry (self : Reef1D) (xs : ndarray) :
  x_coordinates self = Return (Some xs) → (0 < np_len xs)%nat →
  ∃ z : scalar, np_getitem xs 0 = Return z ∧ np_equal z (PyInt 0) = true.
Proof.
  unfold x_coordinates.
  destruct (space self) as [n|], (dx self) as [[d|d]|]; try done; simpl.
  - destruct (d =? 0); [done|]. simpl. intros [= <-]. simpl.
    rewrite length_fmap, zrange_length. intros Hn.
    rewrite list_lookup_fmap, zrange_lookup by done. simpl.
    by eexists.
  - destruct (PrimFloat.eqb d 0); [done|].
    destruct (arange_length _ _) as [m|e]; [|done]. simpl.
    intros [= <-]. simpl.
    rewrite length_fmap, zrange_length. intros Hn.
    rewrite list_lookup_fmap, zrange_lookup by done. simpl.
    by eexists.
Qed.

(** ** The range and the failure of the settings report *)





Section ReportFacts.
Variable str_float : float → string.
Variable str_int : Z → string.


(** X19: [settings] raises exactly when the bathymetry is an empty array,
    and then a [ValueError]; an unset bathymetry, an unset or zero
    spacing, unset wave parameters do not make it fail. *)
Theorem settings_raises_iff_empty (self : Reef1D) :
  (is_raise (settings str_float str_int self) = true ↔ bath self = Some [])
  ∧ (settings str_float str_int self = Raise ValueError ↔ bath self = Some []).
Proof.
  unfold settings, settings_values.
  destruct (bath self) as [[|x a]|]; simpl; split; split; done.
Qed.

End ReportFacts.

(** ** The further properties on the scenarios *)

Lemma wave_field_node_independent_witness :
  wave_length example_tanh example_fsolve (reef_five_nodes (PyInt 10))
  = Return (replicate 5 0x1.ab4042588c8cdp+5%float)
  ∧ depth (reef_five_nodes (PyInt 10)) = Return (replicate 5 5%float)
  ∧ ∃ k1 k2 c1 c2 g1 g2 : list float,
      wave_number example_tanh example_fsolve (reef_five_nodes (PyInt 10))
      = Return k1
      ∧ wave_number example_tanh example_fsolve (reef_five_nodes (PyInt 1))
        = Return k2
      ∧ wave_celerity example_tanh example_fsolve (reef_five_nodes (PyInt 10))
        = Return c1
      ∧ wave_celerity example_tanh example_fsolve (reef_five_nodes (PyInt 1))
        = Return c2
      ∧ group_celerity example_tanh example_sinh example_fsolve
          (reef_five_nodes (PyInt 10)) = Return g1
      ∧ group_celerity example_tanh example_sinh example_fsolve
          (reef_five_nodes (PyInt 1)) = Return g2
      ∧ is_Some (replicate 5 0x1.ab4042588c8cdp+5%float !! 0%nat)
      ∧ replicate 5 0x1.ab4042588c8cdp+5%float !! 0%nat
        = replicate 5 0x1.ab4042588c8cdp+5%float !! 4%nat
      ∧ k1 !! 0%nat = k2 !! 4%nat
      ∧ c1 !! 0%nat = c2 !! 4%nat ∧ g1 !! 0%nat = g2 !! 4%nat.
Proof.
  do 2 (split; [vm_compute; reflexivity|]).
  apply (wave_field_node_independent example_tanh example_sinh example_fsolve
           (reef_five_nodes (PyInt 10)) (reef_five_nodes (PyInt 1))
           (replicate 5 0x1.ab4042588c8cdp+5%float)
           (replicate 5 0x1.ab4042588c8cdp+5%float)
           (replicate 5 5%float) (replicate 5 5%float) 8%float 5%float
           0%nat 4%nat); vm_compute; reflexivity.
Defined.

Lemma wave_number_zero_unless_positive_witness :
  wave_length example_tanh example_fsolve reef_dry_nodes
  = Return [0%float; 0%float; 0x1.546c32e980e1fp+5%float]
  ∧ (0 <? 0)%float = false
  ∧ ∃ k : list float,
      wave_number example_tanh example_fsolve reef_dry_nodes = Return k
      ∧ k !! 1%nat = Some 0%float.
Proof.
  split; [vm_compute; reflexivity|]. split; [reflexivity|].
  apply (wave_number_zero_unless_positive example_tanh example_fsolve
           reef_dry_nodes [0%float; 0%float; 0x1.546c32e980e1fp+5%float]
           1%nat 0%float); vm_compute; reflexivity.
Defined.

Lemma wave_celerity_dry_zero_witness :
  wave_length example_tanh example_fsolve reef_dry_nodes
  = Return [0%float; 0%float; 0x1.546c32e980e1fp+5%float]
  ∧ (0 <? 8)%float = true ∧ ((-1) <=? 0)%float = true
  ∧ ∃ c : list float,
      wave_celerity example_tanh example_fsolve reef_dry_nodes = Return c
      ∧ c !! 0%nat = Some 0%float.
Proof.
  split; [vm_compute; reflexivity|]. do 2 (split; [reflexivity|]).
  apply (wave_celerity_dry_zero example_tanh example_fsolve reef_dry_nodes
           [0%float; 0%float; 0x1.546c32e980e1fp+5%float]
           [(-1)%float; 0%float; 3%float] 8%float (-1)%float 0%nat);
    vm_compute; reflexivity.
Defined.

Lemma group_celerity_nodewise_witness :
  wave_length example_tanh example_fsolve reef_dry_nodes
  = Return [0%float; 0%float; 0x1.546c32e980e1fp+5%float]
  ∧ ∃ (k cg : list float) (kk : float),
      wave_number example_tanh example_fsolve reef_dry_nodes = Return k
      ∧ k !! 2%nat = Some kk
      ∧ group_celerity example_tanh example_sinh example_fsolve reef_dry_nodes
        = Return cg
      ∧ cg !! 2%nat
        = Some (0.5 * (1 + (2 * kk * 3) / example_sinh (kk * 3))
                * (0x1.546c32e980e1fp+5 / 8))%float.
Proof.
  split; [vm_compute; reflexivity|].
  apply (group_celerity_nodewise example_tanh example_sinh example_fsolve
           reef_dry_nodes [0%float; 0%float; 0x1.546c32e980e1fp+5%float]
           [(-1)%float; 0%float; 3%float] 8%float 3%float
           0x1.546c32e980e1fp+5%float 2%nat); vm_compute; reflexivity.
Defined.

Lemma wave_field_unconfigured_witness :
  Tp Reef1D_default = None
  ∧ (is_raise (wave_length example_tanh example_fsolve Reef1D_default) = true
     ∧ is_raise (wave_number example_tanh example_fsolve Reef1D_default) = true
     ∧ is_raise (wave_celerity example_tanh example_fsolve Reef1D_default)
       = true
     ∧ is_raise (group_celerity example_tanh example_sinh example_fsolve
                   Reef1D_default) = true)
  ∧ (Tp Reef1D_default = None →
     wave_length example_tanh example_fsolve Reef1D_default = Raise TypeError
     ∧ wave_number example_tanh example_fsolve Reef1D_default = Raise TypeError
     ∧ wave_celerity example_tanh example_fsolve Reef1D_default
       = Raise TypeError
     ∧ group_celerity example_tanh example_sinh example_fsolve Reef1D_default
       = Raise TypeError).
Proof.
  split; [reflexivity|].
  apply (wave_field_unconfigured example_tanh example_sinh example_fsolve
           Reef1D_default). right. reflexivity.
Defined.

Lemma wave_field_aligned_witness :
  wave_length example_tanh example_fsolve reef_dry_nodes
  = Return [0%float; 0%float; 0x1.546c32e980e1fp+5%float]
  ∧ ∃ d k c cg : list float,
      depth reef_dry_nodes = Return d
      ∧ wave_number example_tanh example_fsolve reef_dry_nodes = Return k
      ∧ wave_celerity example_tanh example_fsolve reef_dry_nodes = Return c
      ∧ group_celerity example_tanh example_sinh example_fsolve reef_dry_nodes
        = Return cg
      ∧ space reef_dry_nodes = Some 3%nat
      ∧ length d = 3%nat ∧ length k = 3%nat
      ∧ length c = 3%nat ∧ length cg = 3%nat.
Proof.
  split; [vm_compute; reflexivity|].
  apply (wave_field_aligned example_tanh example_sinh example_fsolve
           reef_dry_nodes [0%float; 0%float; 0x1.546c32e980e1fp+5%float]).
  vm_compute; reflexivity.
Defined.

Lemma depth_is_bathymetry_witness :
  ∃ d : list float,
    depth reef_dry_nodes = Return d ∧ length d = 3%nat
    ∧ ∀ (i : nat) (x : float),
        [(-1)%float; 0%float; 3%float] !! i = Some x →
        d !! i = Some (if (x =? 0)%float then 0%float else x).
Proof.
  apply (proj2 (depth_is_bathymetry reef_dry_nodes)
           [(-1)%float; 0%float; 3%float]). reflexivity.
Defined.

Lemma wave_celerity_zero_period_witness :
  Tp reef_zero_period = Some 0%float ∧ (0 =? 0)%float = true
  ∧ ∃ c : list float,
      wave_celerity example_tanh example_fsolve reef_zero_period = Return c
      ∧ c !! 1%nat = Some nan.
Proof.
  do 2 (split; [reflexivity|]).
  apply (wave_celerity_zero_period example_tanh example_fsolve
           reef_zero_period [(-1)%float; 0%float; 3%float] 0%float 0%float
           1%nat); reflexivity.
Defined.

Lemma coordinates_zero_spacing_witness :
  np_equal (PyFloat (-0)%float) (PyInt 0) = true
  ∧ x_coordinates (reef_five_nodes (PyFloat (-0)%float))
    = Raise ZeroDivisionError
  ∧ xy_coordinates (reef_five_nodes (PyFloat (-0)%float))
    = Raise ZeroDivisionError.
Proof.
  split; [reflexivity|].
  apply (coordinates_zero_spacing (reef_five_nodes (PyFloat (-0)%float))
           (replicate 5 5%float) (PyFloat (-0)%float)); reflexivity.
Defined.

Lemma x_coordinates_int_multiples_witness :
  ∃ xs : list Z,
    x_coordinates (reef_five_nodes (PyInt 2)) = Return (Some (Int64Array xs))
    ∧ (∀ (i : nat) (x : Z), xs !! i = Some x →
         x = Z.of_nat i * 2 ∧ 0 ≤ x < Z.of_nat (length (replicate 5 5%float)))
    ∧ (∀ i : nat,
         Z.of_nat i * 2 < Z.of_nat (length (replicate 5 5%float)) →
         xs !! i = Some (Z.of_nat i * 2)).
Proof.
  apply (x_coordinates_int_multiples (reef_five_nodes (PyInt 2))
           (replicate 5 5%float) 2); [reflexivity|reflexivity|lia|lia].
Defined.

Lemma x_coordinates_unit_spacing_witness :
  ∃ xs : list Z,
    x_coordinates (reef_five_nodes (PyInt 1)) = Return (Some (Int64Array xs))
    ∧ length xs = length (replicate 5 5%float)
    ∧ ∀ i : nat, (i < length (replicate 5 5%float))%nat →
        xs !! i = Some (Z.of_nat i).
Proof.
  apply (x_coordinates_unit_spacing (reef_five_nodes (PyInt 1))
           (replicate 5 5%float)); reflexivity.
Defined.

Lemma x_coordinates_fewer_than_nodes_witness :
  ∃ xs : ndarray,
    x_coordinates (reef_five_nodes (PyInt 10)) = Return (Some xs)
    ∧ (np_len xs < length (replicate 5 5%float))%nat.
Proof.
  apply (x_coordinates_fewer_than_nodes (reef_five_nodes (PyInt 10))
           (replicate 5 5%float) 10); [reflexivity|reflexivity|lia|simpl; lia].
Defined.

Lemma coordinates_negative_spacing_witness :
  x_coordinates (reef_five_nodes (PyInt (-2))) = Return (Some (Int64Array []))
  ∧ xy_coordinates (reef_five_nodes (PyInt (-2)))
    = Return (Some (Float64Array2 [])).
Proof.
  apply (coordinates_negative_spacing (reef_five_nodes (PyInt (-2)))
           (replicate 5 5%float) (-2)); [reflexivity|reflexivity|lia].
Defined.

Lemma x_coordinates_first_entry_witness :
  ∃ z : scalar,
    np_getitem (Float64Array [0%float; 2.5%float]) 0 = Return z
    ∧ np_equal z (PyInt 0) = true.
Proof.
  apply (x_coordinates_first_entry (reef_five_nodes (PyFloat 2.5%float))
           (Float64Array [0%float; 2.5%float]));
    [vm_compute; reflexivity|simpl; lia].
Defined.

